(** * Solar-farm dashboard (src/app/main.py, src/app/utils.py): a shallow embedding

    The Streamlit script is modelled as a program in a small state-and-exception
    monad: the state is the log of everything the script shows or does
    (texts, error boxes, library calls with the table they receive, prints),
    and a computation either returns or raises a Python exception, carried
    as its message.  Library calls whose code is not part of the repository
    (pandas, the plotting helpers, zipfile) are arguments of the definitions,
    so every theorem holds for every behaviour of them. *)

From Stdlib Require Import List String Ascii Bool Arith ZArith Lia QArith.
Import ListNotations.
Open Scope nat_scope.
Open Scope string_scope.

(* ------------------------------------------------------------------ *)
(** ** Tables *)

(** A cell of a pandas DataFrame: a number, a string or a missing value (NaN). *)
Inductive cell : Type :=
| CNum (q : Q)
| CStr (s : string)
| CNA.

(** A DataFrame: its column labels and its rows, each row aligned with the labels. *)
Record table : Type := mk_table {
  tcols : list string;
  trows : list (list cell)
}.

(** [pd.DataFrame()] *)
Definition empty_table : table := mk_table [] [].

Definition nrows (t : table) : nat := List.length (trows t).
Definition ncols (t : table) : nat := List.length (tcols t).

(** [c in df.columns] *)
Definition has_col (c : string) (cols : list string) : bool :=
  existsb (String.eqb c) cols.

(* ------------------------------------------------------------------ *)
(** ** What the script does: library operations and the log *)

(** The DataFrame and plotting calls the script makes on a table. *)
Inductive op : Type :=
| Describe            (* selected_dataset.describe() *)
| IsNullSum           (* selected_dataset.isnull().sum() *)
| DuplicatedSum       (* selected_dataset.duplicated().sum() *)
| Heatmap             (* plot_correlation_heatmap *)
| TimeSeries          (* plot_time_series *)
| WindRose            (* plot_wind_rose *)
| WindDirection       (* plot_wind_direction_distribution *)
| DetectOutliers      (* detect_outliers(valid_data, outlier_columns) *)
| Boxplot             (* plt.subplots(); sns.boxplot; plt.title; st.pyplot *)
| TempHumidity        (* plot_temperature_vs_humidity *)
| TempTrends          (* plot_temperature_trends *)
| PairPlot.           (* plot_pair_plot *)

Definition op_eqb (a b : op) : bool :=
  match a, b with
  | Describe, Describe | IsNullSum, IsNullSum | DuplicatedSum, DuplicatedSum
  | Heatmap, Heatmap | TimeSeries, TimeSeries | WindRose, WindRose
  | WindDirection, WindDirection | DetectOutliers, DetectOutliers
  | Boxplot, Boxplot | TempHumidity, TempHumidity | TempTrends, TempTrends
  | PairPlot, PairPlot => true
  | _, _ => false
  end.

(** The operations that draw a chart. *)
Definition is_chart (o : op) : bool :=
  match o with
  | Heatmap | TimeSeries | WindRose | WindDirection | Boxplot
  | TempHumidity | TempTrends | PairPlot => true
  | Describe | IsNullSum | DuplicatedSum | DetectOutliers => false
  end.

(** One entry of the log. *)
Inductive event : Type :=
| EvText (s : string)            (* st.title / st.header / st.subheader / st.write of text *)
| EvError (s : string)           (* st.error *)
| EvCall (o : op) (t : table)    (* a library call and the table it is given *)
| EvExtract (member dest : string) (* zipfile: extraction of one archive member *)
| EvClose (path : string)        (* zipfile: the archive is closed *)
| EvPrint (s : string).          (* print *)

(* ------------------------------------------------------------------ *)
(** ** A state-and-exception monad *)

Inductive res (A : Type) : Type :=
| Ret (a : A)
| Raise (e : string).
Arguments Ret {A} a.
Arguments Raise {A} e.

Definition M (A : Type) : Type := list event -> list event * res A.

Definition ret {A} (a : A) : M A := fun L => (L, Ret a).
Definition lift {A} (r : res A) : M A := fun L => (L, r).
Definition emit (ev : event) : M unit := fun L => (app L [ev], Ret tt).

Definition bind {A B} (m : M A) (k : A -> M B) : M B :=
  fun L =>
    match m L with
    | (L', Ret a) => k a L'
    | (L', Raise e) => (L', Raise e)
    end.

Notation "x <- c1 ;; c2" := (bind c1 (fun x => c2))
  (at level 61, c1 at next level, right associativity).
Notation "c1 ;; c2" := (bind c1 (fun _ => c2))
  (at level 61, right associativity).

(** [try: m except Exception as e: h(e)] *)
Definition try_except {A} (m : M A) (h : string -> M A) : M A :=
  fun L =>
    match m L with
    | (L', Raise e) => h e L'
    | r => r
    end.

(* ------------------------------------------------------------------ *)
(** ** load_data (main.py, lines 22-28) *)

Section Load.

(** [pd.read_csv]: returns the parsed table or raises. *)
Variable read_csv : string -> res table.

Definition load_data (data_path : string) : M table :=
  try_except (lift (read_csv data_path))
    (fun e =>
       emit (EvError ("Failed to load data from " ++ data_path ++ ": " ++ e)) ;;
       ret empty_table).

End Load.

(* ------------------------------------------------------------------ *)
(** ** Paths (os.path.join, str.lower, str.replace) *)

(** Python's [str.lower] on an ASCII character. *)
Definition ascii_lower (c : ascii) : ascii :=
  let n := nat_of_ascii c in
  if ((65 <=? n) && (n <=? 90))%nat then ascii_of_nat (n + 32)%nat else c.

Fixpoint py_lower (s : string) : string :=
  match s with
  | EmptyString => EmptyString
  | String c s' => String (ascii_lower c) (py_lower s')
  end.

(** [s.replace(a, b)] for one-character [a] and [b]. *)
Fixpoint py_replace_char (a b : ascii) (s : string) : string :=
  match s with
  | EmptyString => EmptyString
  | String c s' =>
      String (if Ascii.eqb c a then b else c) (py_replace_char a b s')
  end.

Fixpoint ends_with_slash (s : string) : bool :=
  match s with
  | EmptyString => false
  | String c EmptyString => Ascii.eqb c "/"%char
  | String _ s' => ends_with_slash s'
  end.

(** [s.startswith('/')] *)
Definition starts_with_slash (s : string) : bool :=
  match s with
  | EmptyString => false
  | String c _ => Ascii.eqb c "/"%char
  end.

(** [posixpath.join(a, b)] *)
Definition os_path_join (a b : string) : string :=
  if starts_with_slash b then b
  else if String.eqb a "" || ends_with_slash a then a ++ b
  else a ++ "/" ++ b.

Definition DATA_FOLDER : string := "data/original_datasets/".
Definition CLEANED_FOLDER : string := "data/cleaned_datasets/".

(** [DATASETS], in insertion order. *)
Definition DATASETS : list (string * string) :=
  [ ("Benin Malanville", os_path_join DATA_FOLDER "benin-malanville.csv");
    ("Sierra Leone Bumbuna", os_path_join DATA_FOLDER "sierraleone-bumbuna.csv");
    ("Togo Dapaong QC", os_path_join DATA_FOLDER "togo-dapaong_qc.csv") ].

(** Line 39: [os.path.join(CLEANED_FOLDER, f"{name.lower().replace(' ', '_')}_cleaned.csv")] *)
Definition cleaned_path (name : string) : string :=
  os_path_join CLEANED_FOLDER
    (py_replace_char " "%char "_"%char (py_lower name) ++ "_cleaned.csv").

(** The file name as the spec words it: each character lowercased, a space
    becoming an underscore, in one pass. *)
Fixpoint spec_file_stem (s : string) : string :=
  match s with
  | EmptyString => EmptyString
  | String c s' =>
      String (if Ascii.eqb c " "%char then "_"%char else ascii_lower c)
             (spec_file_stem s')
  end.

(* ------------------------------------------------------------------ *)
(** ** Dictionaries (Python dicts keep insertion order) *)

Fixpoint dict_get {V} (d : list (string * V)) (k : string) (default : V) : V :=
  match d with
  | [] => default
  | (k', v) :: d' => if String.eqb k k' then v else dict_get d' k default
  end.

(** [d[k] = v] *)
Fixpoint dict_set {V} (d : list (string * V)) (k : string) (v : V)
  : list (string * V) :=
  match d with
  | [] => [(k, v)]
  | (k', v') :: d' =>
      if String.eqb k k' then (k', v) :: d' else (k', v') :: dict_set d' k v
  end.

(* ------------------------------------------------------------------ *)
(** ** The dashboard script (main.py, lines 43-155) *)

Fixpoint col_index (c : string) (cols : list string) : option nat :=
  match cols with
  | [] => None
  | c' :: cols' =>
      if String.eqb c c' then Some 0
      else match col_index c cols' with Some i => Some (S i) | None => None end
  end.

(** [df[cs]]: a new DataFrame of the listed columns; KeyError when one is absent. *)
Definition project (t : table) (cs : list string) : res table :=
  if forallb (fun c => has_col c (tcols t)) cs then
    Ret (mk_table cs
           (map (fun row =>
                   map (fun c => match col_index c (tcols t) with
                                 | Some i => nth i row CNA
                                 | None => CNA
                                 end) cs)
                (trows t)))
  else Raise "KeyError".

(** The table a call receives: [selected_dataset] or [selected_dataset[cs]]. *)
Inductive texpr : Type :=
| ESelected
| EProject (cs : list string).

(** The column-presence tests of the script. *)
Inductive guard : Type :=
| GHas (c : string)          (* 'c' in df.columns *)
| GAll (cs : list string)    (* set(cs).issubset(df.columns) / all(col in df.columns ...) *)
| GAny (cs : list string).   (* [col for col in cs if col in df.columns] non-empty *)

Definition eval_guard (cols : list string) (g : guard) : bool :=
  match g with
  | GHas c => has_col c cols
  | GAll cs => forallb (fun c => has_col c cols) cs
  | GAny cs => existsb (fun c => has_col c cols) cs
  end.

(** Statements of the tab bodies. *)
Inductive stmt : Type :=
| SSkip
| SText (s : string)                  (* st.header / st.subheader / st.write of text *)
| SCall (o : op) (e : texpr)          (* a DataFrame or plotting call *)
| SSeq (s1 s2 : stmt)
| SIf (g : guard) (s : stmt)          (* if <column test>: s *)
| STry (s : stmt) (prefix : string).  (* try: s except Exception as e: st.error(f"{prefix}{e}") *)

Definition seqs (l : list stmt) : stmt := fold_right SSeq SSkip l.

Definition eval_texpr (t : table) (e : texpr) : res table :=
  match e with
  | ESelected => Ret t
  | EProject cs => project t cs
  end.

Section Exec.

(** The outcome of each library call on the table it receives. *)
Variable run_op : op -> table -> res unit.
(** [selected_dataset] *)
Variable t : table.

Fixpoint exec (s : stmt) : M unit :=
  match s with
  | SSkip => ret tt
  | SText x => emit (EvText x)
  | SCall o e => a <- lift (eval_texpr t e) ;; emit (EvCall o a) ;; lift (run_op o a)
  | SSeq s1 s2 => exec s1 ;; exec s2
  | SIf g s1 => if eval_guard (tcols t) g then exec s1 else ret tt
  | STry s1 pre => try_except (exec s1) (fun e => emit (EvError (pre ++ e)))
  end.

End Exec.

Definition outlier_columns : list string := ["GHI"; "DNI"; "DHI"].
Definition module_columns : list string := ["TModA"; "TModB"; "Tamb"].
Definition analysis_columns : list string := ["GHI"; "DNI"; "DHI"; "Tamb"; "RH"; "WS"].

(** Lines 59-64 (the f-string's line breaks and indentation left out). *)
Definition tab_overview (selected_dataset_name : string) : stmt :=
  seqs [ SText "Overview";
         SText ("This dashboard provides a detailed analysis of the "
                ++ selected_dataset_name ++ " dataset. Navigate to different sections"
                ++ " to explore data insights, trends, and advanced analysis.") ].

(** Lines 67-74. *)
Definition tab_eda : stmt :=
  seqs [ SText "Exploratory Data Analysis";
         SText "**Data Summary:**";
         SCall Describe ESelected;
         SText "**Missing Values:**";
         SCall IsNullSum ESelected;
         SText "**Duplicates:**";
         SCall DuplicatedSum ESelected ].

(** Lines 76-108. *)
Definition tab_visuals : stmt :=
  seqs [ SText "Data Visualizations";
         SText "Correlation Heatmap";
         STry (SCall Heatmap ESelected) "Error plotting correlation heatmap: ";
         SIf (GHas "Timestamp")
           (seqs [ SText "Time Series Trends";
                   STry (SCall TimeSeries ESelected) "Error plotting time series trends: " ]);
         SIf (GAll ["WD"; "WS"])
           (seqs [ SText "Wind Rose";
                   STry (SCall WindRose ESelected) "Error plotting wind rose: " ]);
         SIf (GHas "WD")
           (seqs [ SText "Wind Direction Distribution";
                   STry (SCall WindDirection ESelected)
                     "Error plotting wind direction distribution: " ]) ].

(** Lines 111-154.  The count written on line 121 depends on the result of
    [detect_outliers]; only the fact that a text is written is kept. *)
Definition tab_advanced : stmt :=
  seqs [ SText "Advanced Analysis";
         SText "Outlier Detection";
         SIf (GAll outlier_columns)
           (STry (seqs [ SCall DetectOutliers (EProject outlier_columns);
                         SText "Number of outliers detected";
                         SCall Boxplot (EProject outlier_columns) ])
              "Error detecting outliers: ");
         SIf (GAll ["Tamb"; "RH"])
           (seqs [ SText "Temperature vs. Relative Humidity";
                   STry (SCall TempHumidity ESelected)
                     "Error plotting temperature vs. humidity: " ]);
         SIf (GAll module_columns)
           (seqs [ SText "Temperature Trends Across Modules";
                   STry (SCall TempTrends ESelected) "Error plotting temperature trends: " ]);
         SIf (GAny analysis_columns)
           (seqs [ SText "Pair Plot of Key Variables";
                   STry (SCall PairPlot ESelected) "Error plotting pair plot: " ]) ].

(** The four tabs, rendered one after the other. *)
Definition dashboard_tabs (selected_dataset_name : string) : stmt :=
  seqs [ tab_overview selected_dataset_name; tab_eda; tab_visuals; tab_advanced ].

Section Main.

Variable read_csv : string -> res table.
(** [clean_dataset] is imported from a utils module that is not part of src/;
    it is kept abstract: any result, a cleaned table or an exception. *)
Variable clean_dataset : table -> string -> res table.
Variable run_op : op -> table -> res unit.

(** Lines 32-41. *)
Fixpoint load_and_clean (ds : list (string * string))
    (cleaned_data uncleaned_data : list (string * table))
  : M (list (string * table) * list (string * table)) :=
  match ds with
  | [] => ret (cleaned_data, uncleaned_data)
  | (name, path) :: ds' =>
      raw_data <- load_data read_csv path ;;
      c <- lift (clean_dataset raw_data (cleaned_path name)) ;;
      load_and_clean ds' (dict_set cleaned_data name c)
                         (dict_set uncleaned_data name raw_data)
  end.

Definition load_and_clean_all_datasets
  : M (list (string * table) * list (string * table)) :=
  load_and_clean DATASETS [] [].

(** Lines 44-155 for the dataset chosen in the sidebar. *)
Definition main (selected_dataset_name : string) : M unit :=
  all <- load_and_clean_all_datasets ;;
  let all_uncleaned_data := snd all in
  let selected_dataset := dict_get all_uncleaned_data selected_dataset_name empty_table in
  emit (EvText ("Solar Farm Data Analysis Dashboard for " ++ selected_dataset_name)) ;;
  exec run_op selected_dataset (dashboard_tabs selected_dataset_name).

End Main.

(* ------------------------------------------------------------------ *)
(** ** Syntactic views of the tab bodies *)

(** A statement that makes no library call. *)
Fixpoint no_calls (s : stmt) : bool :=
  match s with
  | SCall _ _ => false
  | SSeq a b => no_calls a && no_calls b
  | SIf _ a | STry a _ => no_calls a
  | SSkip | SText _ => true
  end.

(** [isolated s]: no chart failure escapes [s]; [tail_isolated s]: a chart
    failure may escape [s], but only from its last call. *)
Fixpoint isolated (s : stmt) : bool :=
  match s with
  | SCall o _ => negb (is_chart o)
  | SSeq a b => isolated a && isolated b
  | SIf _ a => isolated a
  | STry a _ => tail_isolated a
  | SSkip | SText _ => true
  end
with tail_isolated (s : stmt) : bool :=
  match s with
  | SSeq a b => (isolated a && tail_isolated b) || (tail_isolated a && no_calls b)
  | SIf _ a | STry a _ => tail_isolated a
  | SCall _ _ | SSkip | SText _ => true
  end.

(** The message each guarded step reports when it fails. *)
Definition error_prefix (o : op) : option string :=
  match o with
  | Heatmap => Some "Error plotting correlation heatmap: "
  | TimeSeries => Some "Error plotting time series trends: "
  | WindRose => Some "Error plotting wind rose: "
  | WindDirection => Some "Error plotting wind direction distribution: "
  | DetectOutliers | Boxplot => Some "Error detecting outliers: "
  | TempHumidity => Some "Error plotting temperature vs. humidity: "
  | TempTrends => Some "Error plotting temperature trends: "
  | PairPlot => Some "Error plotting pair plot: "
  | Describe | IsNullSum | DuplicatedSum => None
  end.

(** [scoped p s]: each chart call of [s] sits in a [try] whose message is the
    chart's own; [p] is the message of the innermost enclosing [try]. *)
Fixpoint scoped (p : option string) (s : stmt) : bool :=
  match s with
  | SCall o _ =>
      if is_chart o then
        match p, error_prefix o with
        | Some pre, Some pre' => String.eqb pre pre'
        | _, _ => false
        end
      else true
  | SSeq a b => scoped p a && scoped p b
  | SIf _ a => scoped p a
  | STry a pre => scoped (Some pre) a
  | SSkip | SText _ => true
  end.

(** Each call of [s] with the column tests it sits under. *)
Fixpoint calls_gated (s : stmt) : list (op * list guard) :=
  match s with
  | SCall o _ => [(o, [])]
  | SSeq a b => calls_gated a ++ calls_gated b
  | SIf g a => map (fun p => (fst p, g :: snd p)) (calls_gated a)
  | STry a _ => calls_gated a
  | SSkip | SText _ => []
  end.

(** Each [try] of [s] (by its message) with the column tests it sits under. *)
Fixpoint tries_gated (s : stmt) : list (string * list guard) :=
  match s with
  | SSeq a b => tries_gated a ++ tries_gated b
  | SIf g a => map (fun p => (fst p, g :: snd p)) (tries_gated a)
  | STry a pre => (pre, []) :: tries_gated a
  | SCall _ _ | SSkip | SText _ => []
  end.

(** The charts a log shows as attempted, in order. *)
Definition charts_attempted (L : list event) : list op :=
  flat_map (fun ev => match ev with
                      | EvCall o _ => if is_chart o then [o] else []
                      | _ => []
                      end) L.

(** The same library, with every chart call succeeding. *)
Definition erase_charts (run_op : op -> table -> res unit) : op -> table -> res unit :=
  fun o a => if is_chart o then Ret tt else run_op o a.

(** The column test under which the script runs each step. *)
Definition gate (o : op) : guard :=
  match o with
  | TimeSeries => GHas "Timestamp"
  | WindRose => GAll ["WD"; "WS"]
  | WindDirection => GHas "WD"
  | DetectOutliers | Boxplot => GAll outlier_columns
  | TempHumidity => GAll ["Tamb"; "RH"]
  | TempTrends => GAll module_columns
  | PairPlot => GAny analysis_columns
  | Describe | IsNullSum | DuplicatedSum | Heatmap => GAll []
  end.

(** The columns the source names for each step. *)
Definition required_columns (o : op) : list string :=
  match o with
  | TimeSeries => ["Timestamp"]
  | WindRose => ["WD"; "WS"]
  | WindDirection => ["WD"]
  | DetectOutliers | Boxplot => outlier_columns
  | TempHumidity => ["Tamb"; "RH"]
  | TempTrends => module_columns
  | PairPlot => analysis_columns
  | Describe | IsNullSum | DuplicatedSum | Heatmap => []
  end.

(** Two runs, one with the real chart outcomes and one where every chart
    succeeds, related on the charts attempted and on the outcome. *)
Definition same_run (p1 p2 : list event * res unit) : Prop :=
  charts_attempted (fst p1) = charts_attempted (fst p2) /\ snd p1 = snd p2.

Definition tail_run (p1 p2 : list event * res unit) : Prop :=
  charts_attempted (fst p1) = charts_attempted (fst p2) /\
  (snd p1 = snd p2 \/ ((exists e, snd p1 = Raise e) /\ snd p2 = Ret tt)).

(** The table [load_data] hands back for a path. *)
Definition load_table (read_csv : string -> res table) (path : string) : table :=
  match read_csv path with
  | Ret t => t
  | Raise _ => empty_table
  end.

(** [uncleaned_data] as lines 36-38 fill it, written without the cleaning step. *)
Definition raw_tables (read_csv : string -> res table) : list (string * table) :=
  fold_left (fun acc np => dict_set acc (fst np) (load_table read_csv (snd np)))
            DATASETS [].

Definition raw_selected (read_csv : string -> res table) (name : string) : table :=
  dict_get (raw_tables read_csv) name empty_table.

(** Every cleaned table replaced by the empty one; exceptions kept. *)
Definition blank_cleaning (clean_dataset : table -> string -> res table)
  : table -> string -> res table :=
  fun t p => match clean_dataset t p with
             | Ret _ => Ret empty_table
             | Raise e => Raise e
             end.

(** A statement whose library calls all sit inside a [try]: no exception
    leaves it. *)
Fixpoint never_raises (s : stmt) : bool :=
  match s with
  | SCall _ _ => false
  | SSeq a b => never_raises a && never_raises b
  | SIf _ a => never_raises a
  | STry _ _ | SSkip | SText _ => true
  end.

(** The error box [load_data] shows for a path, if any. *)
Definition load_error (read_csv : string -> res table) (path : string) : list event :=
  match read_csv path with
  | Ret _ => []
  | Raise e => [EvError ("Failed to load data from " ++ path ++ ": " ++ e)]
  end.

Definition load_errors (read_csv : string -> res table) (ds : list (string * string))
  : list event :=
  flat_map (fun np => load_error read_csv (snd np)) ds.

(** Whether [clean_dataset] returns for a dataset, and the table it returns. *)
Definition cleans (read_csv : string -> res table)
    (clean_dataset : table -> string -> res table) (np : string * string) : bool :=
  match clean_dataset (load_table read_csv (snd np)) (cleaned_path (fst np)) with
  | Ret _ => true
  | Raise _ => false
  end.

Definition cleaned_table (read_csv : string -> res table)
    (clean_dataset : table -> string -> res table) (np : string * string) : table :=
  match clean_dataset (load_table read_csv (snd np)) (cleaned_path (fst np)) with
  | Ret c => c
  | Raise _ => empty_table
  end.



(* ------------------------------------------------------------------ *)
(** ** extract_datasets (utils.py, lines 3-7) *)

(** An open archive: its path and the member names of its central directory. *)
Record zipfile : Type := mk_zipfile {
  zpath : string;
  namelist : list string
}.

Section Zip.

(** [zipfile.ZipFile(path, 'r')]: the archive, or the exception it raises. *)
Variable zip_open : string -> res zipfile.
(** [ZipFile._extract_member(member, path, pwd)]: writes one member under
    [path], or raises. *)
Variable extract_member : string -> string -> res unit.

Fixpoint extract_members (ms : list string) (path : string) : M unit :=
  match ms with
  | [] => ret tt
  | m :: ms' =>
      emit (EvExtract m path) ;; lift (extract_member m path) ;; extract_members ms' path
  end.

(** [ZipFile.extractall(path)] with no [members] argument: every name of
    [namelist()], in order. *)
Definition extractall (z : zipfile) (path : string) : M unit :=
  extract_members (namelist z) path.

(** [ZipFile.close()] on an archive opened in mode 'r': the end record is
    written only in the writing modes, so it only releases the file. *)
Definition zclose (z : zipfile) : M unit := emit (EvClose (zpath z)).

(** [with zipfile.ZipFile(input, 'r') as zip: zip.extractall(output); print(...)]:
    [__exit__] closes the archive and returns [None], so an exception of the
    body is raised again after the close. *)
Definition extract_datasets (input_data_path output_data_path : string) : M unit :=
  zip <- lift (zip_open input_data_path) ;;
  try_except
    (extractall zip output_data_path ;;
     emit (EvPrint ("Extracted " ++ input_data_path ++ " to " ++ output_data_path)))
    (fun e => zclose zip ;; lift (Raise e)) ;;
  zclose zip.

End Zip.

(* ------------------------------------------------------------------ *)
(** ** Outlier detection *)

(** Modelled from the spec: [detect_outliers] (imported by main.py from a
    utils module that is not among the sources) as section 4.3 of the spec
    describes it: per row and per selected column a standardised deviation
    from the column mean, [|x - mean| / std]; a row is flagged when any (or,
    in the other mode, all) of its scores exceed a fixed threshold; a column
    without variance has no score, and no row is flagged on it.  Scores are
    compared squared, [(x - mean)^2 > threshold^2 * var], which avoids the
    square root. *)

Definition Qsum (xs : list Q) : Q := fold_right Qplus 0%Q xs.

Definition mean (xs : list Q) : Q :=
  Qsum xs / inject_Z (Z.of_nat (List.length xs)).

Definition variance (xs : list Q) : Q :=
  let m := mean xs in
  Qsum (map (fun x => (x - m) * (x - m))%Q xs) / inject_Z (Z.of_nat (List.length xs)).

Definition Qltb (a b : Q) : bool := negb (Qle_bool b a).

(** Does the score of row [i] in column [xs] exceed [threshold]? *)
Definition flags_col (threshold : Q) (xs : list Q) (i : nat) : bool :=
  let m := mean xs in
  let v := variance xs in
  if Qeq_bool v 0 then false
  else let d := (nth i xs 0 - m)%Q in Qltb (threshold * threshold * v) (d * d).

(** Whether a row needs one score or all of its scores over the threshold. *)
Inductive flag_mode : Type := AnyColumn | AllColumns.

Definition combine_flags (mode : flag_mode) (bs : list bool) : bool :=
  match mode with
  | AnyColumn => existsb (fun b => b) bs
  | AllColumns => forallb (fun b => b) bs
  end.

(** A numeric table: named columns of equal length. *)
Definition numtable : Type := list (string * list Q).

Fixpoint lookup_col (tbl : numtable) (c : string) : option (list Q) :=
  match tbl with
  | [] => None
  | (c', xs) :: tbl' => if String.eqb c c' then Some xs else lookup_col tbl' c
  end.

Definition num_rows (tbl : numtable) : nat :=
  match tbl with
  | [] => 0
  | (_, xs) :: _ => List.length xs
  end.

Fixpoint lookup_cols (tbl : numtable) (cols : list string) : option (list (list Q)) :=
  match cols with
  | [] => Some []
  | c :: cols' =>
      match lookup_col tbl c, lookup_cols tbl cols' with
      | Some xs, Some xss => Some (xs :: xss)
      | _, _ => None
      end
  end.

(** The indices of the flagged rows; [None] is the KeyError of an absent column. *)
Definition detect_outliers (mode : flag_mode) (threshold : Q)
    (tbl : numtable) (cols : list string) : option (list nat) :=
  match lookup_cols tbl cols with
  | None => None
  | Some xss =>
      Some (filter (fun i => combine_flags mode (map (fun xs => flags_col threshold xs i) xss))
                   (seq 0 (num_rows tbl)))
  end.

(* ================================================================== *)
(** * Properties *)

Open Scope list_scope.

(* ------------------------------------------------------------------ *)
(** ** The log only grows *)

Lemma exec_extends (run_op : op -> table -> res unit) (t : table) (s : stmt) (L : list event) :
  exists new, fst (exec run_op t s L) = L ++ new.
Proof.
  revert L; induction s; intros L; cbn [exec].
  - exists []; cbn. now rewrite app_nil_r.
  - now exists [EvText s].
  - unfold bind, lift, emit; destruct (eval_texpr t e) as [a|x]; cbn.
    + now exists [EvCall o a].
    + exists []; now rewrite app_nil_r.
  - unfold bind. destruct (exec run_op t s1 L) as [L1 r1] eqn:E1.
    destruct (IHs1 L) as [n1 H1]; rewrite E1 in H1; cbn in H1; subst L1.
    destruct r1 as [u|x].
    + destruct (IHs2 (L ++ n1)) as [n2 H2]. exists (n1 ++ n2). now rewrite H2, app_assoc.
    + now exists n1.
  - destruct (eval_guard (tcols t) g); [apply IHs|].
    exists []; cbn; now rewrite app_nil_r.
  - unfold try_except. destruct (exec run_op t s L) as [L1 r1] eqn:E1.
    destruct (IHs L) as [n1 H1]; rewrite E1 in H1; cbn in H1; subst L1.
    destruct r1 as [u|x]; cbn.
    + now exists n1.
    + exists (n1 ++ [EvError (prefix ++ x)%string]). now rewrite app_assoc.
Qed.

Lemma charts_attempted_app (L1 L2 : list event) :
  charts_attempted (L1 ++ L2) = charts_attempted L1 ++ charts_attempted L2.
Proof. unfold charts_attempted. apply flat_map_app. Qed.

(* ------------------------------------------------------------------ *)
(** ** Fault isolation of the chart calls *)

Section Isolation.

Variable run_op : op -> table -> res unit.
Variable t : table.

Lemma no_calls_exec (r : op -> table -> res unit) (s : stmt) (L : list event) :
  no_calls s = true ->
  snd (exec r t s L) = Ret tt /\
  charts_attempted (fst (exec r t s L)) = charts_attempted L.
Proof.
  revert L; induction s; intros L Hs; cbn in Hs |- *; try discriminate.
  - auto.
  - unfold emit; cbn. rewrite charts_attempted_app; cbn. now rewrite app_nil_r.
  - apply andb_prop in Hs as [Ha Hb]. unfold bind.
    destruct (exec r t s1 L) as [L1 r1] eqn:E1.
    destruct (IHs1 L Ha) as [R1 C1]; rewrite E1 in R1, C1; cbn in R1, C1; subst r1.
    destruct (IHs2 L1 Hb) as [R2 C2]. split; [exact R2|]. now rewrite C2.
  - destruct (eval_guard (tcols t) g); auto.
  - unfold try_except. destruct (exec r t s L) as [L1 r1] eqn:E1.
    destruct (IHs L Hs) as [R1 C1]; rewrite E1 in R1, C1; cbn in R1, C1; subst r1.
    auto.
Qed.

Lemma isolated_tail (s : stmt) : isolated s = true -> tail_isolated s = true.
Proof.
  induction s; cbn; intros H; auto.
  apply andb_prop in H as [Ha Hb]. rewrite Ha, (IHs2 Hb). reflexivity.
Qed.

Lemma exec_isolated (s : stmt) :
  (isolated s = true -> forall L1 L2, charts_attempted L1 = charts_attempted L2 ->
     same_run (exec run_op t s L1) (exec (erase_charts run_op) t s L2)) /\
  (tail_isolated s = true -> forall L1 L2, charts_attempted L1 = charts_attempted L2 ->
     tail_run (exec run_op t s L1) (exec (erase_charts run_op) t s L2)).
Proof.
  induction s as [| x | o e | a [IHa IHa'] b [IHb IHb'] | g a [IHa IHa'] | a [IHa IHa'] pre];
    cbn [isolated tail_isolated exec]; unfold same_run, tail_run.
  - (* SSkip *) split; intros _ L1 L2 HL; cbn; auto.
  - (* SText *) split; intros _ L1 L2 HL; cbn;
      rewrite !charts_attempted_app, HL; auto.
  - (* SCall *)
    unfold bind, lift, emit, erase_charts.
    split; intros Ho L1 L2 HL; destruct (eval_texpr t e) as [v|x]; cbn; auto;
      rewrite !charts_attempted_app, HL.
    + apply negb_true_iff in Ho; rewrite Ho; auto.
    + destruct (is_chart o); [|auto].
      destruct (run_op o v) as [[]|x]; eauto.
  - (* SSeq *)
    unfold bind. split.
    + intros H L1 L2 HL. apply andb_prop in H as [Ha Hb].
      destruct (IHa Ha L1 L2 HL) as [C R].
      destruct (exec run_op t a L1) as [L1' r1], (exec (erase_charts run_op) t a L2) as [L2' r2].
      cbn [fst snd] in C, R; subst r2. destruct r1 as [[]|x]; [apply (IHb Hb); exact C | auto].
    + intros H L1 L2 HL. apply orb_prop in H as [H|H]; apply andb_prop in H as [Ha Hb].
      * destruct (IHa Ha L1 L2 HL) as [C R].
        destruct (exec run_op t a L1) as [L1' r1], (exec (erase_charts run_op) t a L2) as [L2' r2].
        cbn [fst snd] in C, R; subst r2. destruct r1 as [[]|x]; [apply (IHb' Hb); exact C | auto].
      * destruct (IHa' Ha L1 L2 HL) as [C R].
        destruct (exec run_op t a L1) as [L1' r1] eqn:E1,
                 (exec (erase_charts run_op) t a L2) as [L2' r2] eqn:E2.
        cbn [fst snd] in C, R.
        destruct (no_calls_exec run_op b L1' Hb) as [Rb1 Cb1].
        destruct (no_calls_exec (erase_charts run_op) b L2' Hb) as [Rb2 Cb2].
        destruct R as [R | [[x Rx] Ry]].
        -- subst r2. destruct r1 as [[]|x]; [|auto].
           destruct (exec run_op t b L1'), (exec (erase_charts run_op) t b L2').
           cbn in *. subst. rewrite Cb1, Cb2. auto.
        -- subst r1 r2. destruct (exec (erase_charts run_op) t b L2').
           cbn in *. subst. rewrite Cb2. eauto.
  - (* SIf *)
    destruct (eval_guard (tcols t) g).
    + split; [apply IHa | apply IHa'].
    + split; intros _ L1 L2 HL; cbn; auto.
  - (* STry *)
    unfold try_except, emit.
    assert (K : forall L1 L2, charts_attempted L1 = charts_attempted L2 ->
                 tail_isolated a = true ->
                 same_run
                   (match exec run_op t a L1 with
                    | (L', Raise e) => (L' ++ [EvError (pre ++ e)%string], Ret tt)
                    | r => r end)
                   (match exec (erase_charts run_op) t a L2 with
                    | (L', Raise e) => (L' ++ [EvError (pre ++ e)%string], Ret tt)
                    | r => r end)).
    { intros L1 L2 HL Ha. destruct (IHa' Ha L1 L2 HL) as [C R].
      destruct (exec run_op t a L1) as [L1' r1], (exec (erase_charts run_op) t a L2) as [L2' r2].
      cbn [fst snd] in C, R. unfold same_run.
      destruct R as [R | [[x Rx] Ry]]; subst.
      - destruct r2 as [[]|x]; cbn [fst snd]; [auto|].
        rewrite !charts_attempted_app, C; auto.
      - cbn [fst snd]. rewrite !charts_attempted_app, C; cbn. rewrite app_nil_r; auto. }
    split; intros Ha L1 L2 HL; destruct (K L1 L2 HL Ha) as [C R]; auto.
Qed.

End Isolation.

(* ------------------------------------------------------------------ *)
(** ** A failing chart leaves its own message *)

Lemma exec_scoped (run_op : op -> table -> res unit) (t : table) (s : stmt)
    (p : option string) (L : list event) :
  scoped p s = true ->
  exists new, fst (exec run_op t s L) = L ++ new /\
    forall o a e pre, is_chart o = true -> error_prefix o = Some pre ->
      In (EvCall o a) new -> run_op o a = Raise e ->
      (p = Some pre /\ snd (exec run_op t s L) = Raise e) \/
      In (EvError (pre ++ e)%string) new.
Proof.
  revert p L; induction s as [| x | o' e' | a IHa b IHb | g a IHa | a IHa pre0];
    intros p L Hs; cbn [exec scoped] in Hs |- *.
  - exists []; split; [cbn; now rewrite app_nil_r | intros; contradiction].
  - exists [EvText x]; split; [reflexivity|]. intros o a e pre _ _ [H|[]]; discriminate.
  - unfold bind, lift, emit. destruct (eval_texpr t e') as [v|x]; cbn.
    + exists [EvCall o' v]; split; [reflexivity|].
      intros o a e pre Hc Hp [H|[]] Hr. injection H as -> ->.
      rewrite Hc, Hp in Hs. left.
      destruct p as [pre1|]; [|discriminate]. apply String.eqb_eq in Hs; subst. auto.
    + exists []; split; [now rewrite app_nil_r | intros; contradiction].
  - apply andb_prop in Hs as [Ha Hb]. unfold bind.
    destruct (IHa p L Ha) as [na [Ea Pa]].
    destruct (exec run_op t a L) as [La ra] eqn:E1; cbn [fst snd] in Ea, Pa; subst La.
    destruct ra as [[]|x].
    + destruct (IHb p (L ++ na) Hb) as [nb [Eb Pb]].
      exists (na ++ nb); split; [rewrite Eb, <- app_assoc; reflexivity|].
      intros o a0 e pre Hc Hp Hin Hr. apply in_app_or in Hin as [Hin|Hin].
      * destruct (Pa o a0 e pre Hc Hp Hin Hr) as [[_ ?]|?]; [discriminate|].
        right; apply in_or_app; auto.
      * destruct (Pb o a0 e pre Hc Hp Hin Hr) as [?|?]; [left; auto|].
        right; apply in_or_app; auto.
    + exists na; split; [reflexivity|]. exact Pa.
  - destruct (eval_guard (tcols t) g); [apply IHa; exact Hs|].
    exists []; split; [cbn; now rewrite app_nil_r | intros; contradiction].
  - unfold try_except, emit.
    destruct (IHa (Some pre0) L Hs) as [na [Ea Pa]].
    destruct (exec run_op t a L) as [La ra] eqn:E1; cbn [fst snd] in Ea, Pa; subst La.
    destruct ra as [[]|x]; cbn [fst snd].
    + exists na; split; [reflexivity|].
      intros o a0 e pre Hc Hp Hin Hr.
      destruct (Pa o a0 e pre Hc Hp Hin Hr) as [[_ ?]|?]; [discriminate|auto].
    + exists (na ++ [EvError (pre0 ++ x)%string]); split; [rewrite <- app_assoc; reflexivity|].
      intros o a0 e pre Hc Hp Hin Hr.
      apply in_app_or in Hin as [Hin|[H|[]]]; [|discriminate].
      destruct (Pa o a0 e pre Hc Hp Hin Hr) as [[Hq Hx]|?].
      * injection Hq as ->. injection Hx as ->. right; apply in_or_app; right; left; auto.
      * right; apply in_or_app; auto.
Qed.

(* ------------------------------------------------------------------ *)
(** ** Calls and error messages happen only under satisfied column tests *)

Lemma exec_gated (run_op : op -> table -> res unit) (t : table) (s : stmt) (L : list event) :
  exists new, fst (exec run_op t s L) = L ++ new /\
    (forall o a, In (EvCall o a) new ->
       (a = t \/ exists cs, project t cs = Ret a) /\
       exists gs, In (o, gs) (calls_gated s) /\ forallb (eval_guard (tcols t)) gs = true) /\
    (forall m, In (EvError m) new ->
       exists pre gs e, In (pre, gs) (tries_gated s) /\
         forallb (eval_guard (tcols t)) gs = true /\ m = (pre ++ e)%string).
Proof.
  revert L; induction s as [| x | o' e' | a IHa b IHb | g a IHa | a IHa pre0];
    intros L; cbn [exec calls_gated tries_gated].
  - exists []; split; [|split]; [cbn; now rewrite app_nil_r| |]; intros; contradiction.
  - exists [EvText x]; split; [|split]; [reflexivity| |]; intros ? ? [H|[]] || intros ? [H|[]];
      discriminate.
  - unfold bind, lift, emit. destruct (eval_texpr t e') as [v|x] eqn:Ev; cbn.
    + exists [EvCall o' v]; split; [|split]; [reflexivity| |].
      * intros o a [H|[]]. injection H as -> ->. split.
        -- destruct e'; cbn in Ev; [injection Ev as ->; auto | eauto].
        -- exists []; auto.
      * intros m [H|[]]; discriminate.
    + exists []; split; [|split]; [now rewrite app_nil_r| |]; intros; contradiction.
  - unfold bind.
    destruct (IHa L) as [na [Ea [Ca Ta]]].
    destruct (exec run_op t a L) as [La ra] eqn:E1; cbn [fst snd] in Ea; subst La.
    destruct ra as [[]|x].
    + destruct (IHb (L ++ na)) as [nb [Eb [Cb Tb]]].
      exists (na ++ nb); split; [|split]; [rewrite Eb, <- app_assoc; reflexivity| |].
      * intros o a0 Hin. apply in_app_or in Hin as [Hin|Hin];
          [destruct (Ca o a0 Hin) as [A [gs [G1 G2]]] | destruct (Cb o a0 Hin) as [A [gs [G1 G2]]]];
          split; auto; exists gs; split; auto; apply in_or_app; auto.
      * intros m Hin. apply in_app_or in Hin as [Hin|Hin];
          [destruct (Ta m Hin) as [pre [gs [e [G1 G2]]]] | destruct (Tb m Hin) as [pre [gs [e [G1 G2]]]]];
          exists pre, gs, e; split; auto; apply in_or_app; auto.
    + exists na; split; [|split]; [reflexivity| |].
      * intros o a0 Hin. destruct (Ca o a0 Hin) as [A [gs [G1 G2]]].
        split; auto; exists gs; split; auto; apply in_or_app; auto.
      * intros m Hin. destruct (Ta m Hin) as [pre [gs [e [G1 G2]]]].
        exists pre, gs, e; split; auto; apply in_or_app; auto.
  - destruct (eval_guard (tcols t) g) eqn:Hg.
    + destruct (IHa L) as [na [Ea [Ca Ta]]]. exists na; split; [|split]; [exact Ea| |].
      * intros o a0 Hin. destruct (Ca o a0 Hin) as [A [gs [G1 G2]]]. split; auto.
        exists (g :: gs); split.
        -- apply (in_map (fun p => (fst p, g :: snd p)) _ (o, gs)); exact G1.
        -- cbn; rewrite Hg; exact G2.
      * intros m Hin. destruct (Ta m Hin) as [pre [gs [e [G1 G2]]]].
        exists pre, (g :: gs), e; split; [|split; [cbn; rewrite Hg|]; tauto].
        apply (in_map (fun p => (fst p, g :: snd p)) _ (pre, gs)); exact G1.
    + exists []; split; [|split]; [cbn; now rewrite app_nil_r| |]; intros; contradiction.
  - unfold try_except, emit.
    destruct (IHa L) as [na [Ea [Ca Ta]]].
    destruct (exec run_op t a L) as [La ra] eqn:E1; cbn [fst snd] in Ea; subst La.
    destruct ra as [[]|x]; cbn [fst snd].
    + exists na; split; [|split]; [reflexivity| |]; [exact Ca|].
      intros m Hin. destruct (Ta m Hin) as [pre [gs [e [G1 G2]]]].
      exists pre, gs, e; split; [right|]; auto.
    + exists (na ++ [EvError (pre0 ++ x)%string]); split; [|split]; [rewrite <- app_assoc; reflexivity| |].
      * intros o a0 Hin. apply in_app_or in Hin as [Hin|[H|[]]]; [exact (Ca o a0 Hin)|discriminate].
      * intros m Hin. apply in_app_or in Hin as [Hin|[H|[]]].
        -- destruct (Ta m Hin) as [pre [gs [e [G1 G2]]]].
           exists pre, gs, e; split; [right|]; auto.
        -- injection H as <-. exists pre0, [], x; split; [left|]; auto.
Qed.

(* ------------------------------------------------------------------ *)
(** ** The tabs on small tables *)

(** A table with a timestamp and an irradiance column; the heatmap fails. *)
Example tabs_heatmap_fails :
  let t := mk_table ["Timestamp"; "GHI"] [] in
  let r := fun o (_ : table) => if op_eqb o Heatmap then Raise "boom" else Ret tt in
  charts_attempted (fst (exec r t (dashboard_tabs "Benin Malanville") [])) =
    [Heatmap; TimeSeries; PairPlot] /\
  In (EvError "Error plotting correlation heatmap: boom")
     (fst (exec r t (dashboard_tabs "Benin Malanville") [])) /\
  snd (exec r t (dashboard_tabs "Benin Malanville") []) = Ret tt.
Proof.
  split; [reflexivity|split; [|reflexivity]].
  cbn. repeat (first [left; reflexivity | right]).
Qed.

(** An empty table (a failed load): describe() raising stops the script
    before any chart. *)
Example tabs_empty_table_describe_raises :
  let r := fun o (_ : table) => if op_eqb o Describe then Raise "ValueError" else Ret tt in
  charts_attempted (fst (exec r empty_table (dashboard_tabs "Togo Dapaong QC") [])) = [] /\
  snd (exec r empty_table (dashboard_tabs "Togo Dapaong QC") []) = Raise "ValueError".
Proof. split; reflexivity. Qed.

Ltac gate_holds Hg :=
  first [ reflexivity
        | cbn [forallb] in Hg; rewrite andb_true_r in Hg; exact Hg ].

Ltac step_is o Hg :=
  exists o; eexists; eexists; split; [reflexivity | split; [reflexivity | gate_holds Hg]].

(** C4: every chart call of the Visualizations and Advanced Analysis tabs is
    fault-isolated.  For every selected table and every behaviour of the
    library: the charts attempted, and whether the script ends normally, are
    the same as when every chart succeeds; a chart that raises leaves the
    error box of its own step, [<prefix><exception>]; and the prefixes of
    different charts differ. *)
Theorem chart_failures_isolated (selected_dataset_name : string)
    (run_op : op -> table -> res unit) (t : table) :
  charts_attempted (fst (exec run_op t (dashboard_tabs selected_dataset_name) [])) =
    charts_attempted (fst (exec (erase_charts run_op) t (dashboard_tabs selected_dataset_name) [])) /\
  snd (exec run_op t (dashboard_tabs selected_dataset_name) []) =
    snd (exec (erase_charts run_op) t (dashboard_tabs selected_dataset_name) []) /\
  (forall o a e pre, is_chart o = true -> error_prefix o = Some pre ->
     In (EvCall o a) (fst (exec run_op t (dashboard_tabs selected_dataset_name) [])) ->
     run_op o a = Raise e ->
     In (EvError (pre ++ e)%string) (fst (exec run_op t (dashboard_tabs selected_dataset_name) []))) /\
  (forall o1 o2 pre, is_chart o1 = true -> is_chart o2 = true ->
     error_prefix o1 = Some pre -> error_prefix o2 = Some pre -> o1 = o2).
Proof.
  assert (Hi : isolated (dashboard_tabs selected_dataset_name) = true) by reflexivity.
  destruct (proj1 (exec_isolated run_op t _) Hi [] [] eq_refl) as [C R].
  split; [exact C|split; [exact R|split]].
  - intros o a e pre Hc Hp Hin Hr.
    assert (Hs : scoped None (dashboard_tabs selected_dataset_name) = true) by reflexivity.
    destruct (exec_scoped run_op t _ None [] Hs) as [new [E P]].
    cbn [app] in E. rewrite E in Hin |- *.
    destruct (P o a e pre Hc Hp Hin Hr) as [[Hn _]|H]; [discriminate|exact H].
  - intros o1 o2 pre H1 H2 E1 E2.
    destruct o1; cbn in H1, E1; try discriminate; rewrite <- E1 in E2;
      destruct o2; cbn in H2, E2; try discriminate; reflexivity.
Qed.

(** C5 (amended): the steps run only under the column tests the script
    writes: time series needs Timestamp, the wind rose WD and WS, the wind
    direction chart WD, outlier detection GHI, DNI and DHI, temperature vs.
    humidity Tamb and RH, module trends TModA, TModB and Tamb, and the pair
    plot any one of GHI, DNI, DHI, Tamb, RH, WS; the correlation heatmap and
    the EDA summaries are not gated.  A step whose test fails is neither
    called nor reported as an error; without a Timestamp column the time
    series chart is skipped. *)
Theorem steps_run_under_their_gates (selected_dataset_name : string)
    (run_op : op -> table -> res unit) (t : table) :
  (forall o a, In (EvCall o a) (fst (exec run_op t (dashboard_tabs selected_dataset_name) [])) ->
     eval_guard (tcols t) (gate o) = true) /\
  (forall m, In (EvError m) (fst (exec run_op t (dashboard_tabs selected_dataset_name) [])) ->
     exists o pre e, error_prefix o = Some pre /\ m = (pre ++ e)%string /\
       eval_guard (tcols t) (gate o) = true) /\
  (has_col "Timestamp" (tcols t) = false ->
     (forall a, ~ In (EvCall TimeSeries a) (fst (exec run_op t (dashboard_tabs selected_dataset_name) []))) /\
     (forall e, ~ In (EvError ("Error plotting time series trends: " ++ e)%string)
                    (fst (exec run_op t (dashboard_tabs selected_dataset_name) [])))).
Proof.
  destruct (exec_gated run_op t (dashboard_tabs selected_dataset_name) []) as [new [E [C T]]].
  cbn [app] in E. rewrite E.
  assert (P1 : forall o a, In (EvCall o a) new -> eval_guard (tcols t) (gate o) = true).
  { intros o a H. destruct (C o a H) as [_ [gs [Hin Hg]]].
    cbn in Hin. repeat destruct Hin as [Hin|Hin]; try contradiction;
      injection Hin as <- <-; gate_holds Hg. }
  assert (P2 : forall m, In (EvError m) new ->
     exists o pre e, error_prefix o = Some pre /\ m = (pre ++ e)%string /\
       eval_guard (tcols t) (gate o) = true).
  { intros m H. destruct (T m H) as [pre [gs [e [Hin [Hg ->]]]]].
    cbn in Hin. repeat destruct Hin as [Hin|Hin]; try contradiction;
      injection Hin as <- <-;
      first [ step_is Heatmap Hg | step_is TimeSeries Hg | step_is WindRose Hg
            | step_is WindDirection Hg | step_is DetectOutliers Hg
            | step_is TempHumidity Hg | step_is TempTrends Hg | step_is PairPlot Hg ]. }
  split; [exact P1|split; [exact P2|]].
  intros Hts. split.
  - intros a H. specialize (P1 _ _ H). cbn [gate eval_guard] in P1. congruence.
  - intros e H. destruct (P2 _ H) as [o [pre [e0 [Hp [Hm Hg]]]]].
    destruct o; cbn [error_prefix] in Hp; try discriminate; injection Hp as <-;
      cbn in Hm; try discriminate.
    cbn [gate eval_guard] in Hg. congruence.
Qed.

(** C5: a step runs although columns it names are absent: on a table with the
    GHI column only, the pair plot is called, while DNI, one of its columns,
    is missing. *)
Lemma pair_plot_runs_without_its_columns :
  In (EvCall PairPlot (mk_table ["GHI"] [[CNum 1]]))
     (fst (exec (fun _ _ => Ret tt) (mk_table ["GHI"] [[CNum 1]])
                (dashboard_tabs "Benin Malanville") [])) /\
  In "DNI" (required_columns PairPlot) /\
  ~ In "DNI" (tcols (mk_table ["GHI"] [[CNum 1]])).
Proof.
  split; [|split].
  - cbn. repeat (first [left; reflexivity | right]).
  - cbn. tauto.
  - cbn. intros [H|[]]. discriminate.
Qed.

(* ------------------------------------------------------------------ *)
(** ** Loading *)

Lemma load_data_eq (read_csv : string -> res table) (data_path : string) (L : list event) :
  exists new, load_data read_csv data_path L = (L ++ new, Ret (load_table read_csv data_path)) /\
    forall ev, In ev new -> exists m, ev = EvError m.
Proof.
  unfold load_data, load_table, try_except, lift, bind, emit, ret.
  destruct (read_csv data_path) as [t|e].
  - exists []; split; [now rewrite app_nil_r | intros ? []].
  - eexists; split; [reflexivity|]. intros ev [<-|[]]; eauto.
Qed.

(** C1: [load_data] never raises.  When [pd.read_csv] raises [e], it shows
    the error box "Failed to load data from <path>: <e>" and returns the empty
    table, with no rows and no columns; otherwise it returns the parsed table
    and shows nothing. *)
Theorem load_data_never_raises (read_csv : string -> res table) (data_path : string)
    (L : list event) :
  load_data read_csv data_path L =
    match read_csv data_path with
    | Ret t => (L, Ret t)
    | Raise e =>
        (L ++ [EvError ("Failed to load data from " ++ data_path ++ ": " ++ e)%string],
         Ret empty_table)
    end /\
  (forall e, snd (load_data read_csv data_path L) <> Raise e) /\
  nrows empty_table = 0 /\ ncols empty_table = 0.
Proof.
  assert (Heq : load_data read_csv data_path L =
    match read_csv data_path with
    | Ret t => (L, Ret t)
    | Raise e =>
        (L ++ [EvError ("Failed to load data from " ++ data_path ++ ": " ++ e)%string],
         Ret empty_table)
    end).
  { unfold load_data, try_except, lift, bind, emit, ret.
    destruct (read_csv data_path); reflexivity. }
  split; [exact Heq|split; [|split; reflexivity]].
  intros e. rewrite Heq. destruct (read_csv data_path); cbn; discriminate.
Qed.

(* ------------------------------------------------------------------ *)
(** ** The cleaned file's path *)

Lemma stem_char_eq (c : ascii) :
  (if Ascii.eqb (ascii_lower c) " "%char then "_"%char else ascii_lower c) =
  (if Ascii.eqb c " "%char then "_"%char else ascii_lower c).
Proof. destruct c as [[] [] [] [] [] [] [] []]; reflexivity. Qed.

Lemma stem_char_slash (c : ascii) :
  Ascii.eqb (if Ascii.eqb c " "%char then "_"%char else ascii_lower c) "/"%char =
  Ascii.eqb c "/"%char.
Proof. destruct c as [[] [] [] [] [] [] [] []]; reflexivity. Qed.

Lemma lower_replace_stem (s : string) :
  py_replace_char " "%char "_"%char (py_lower s) = spec_file_stem s.
Proof.
  induction s as [|c s IH]; cbn; [reflexivity|]. now rewrite IH, stem_char_eq.
Qed.

Lemma stem_not_absolute (name : string) :
  starts_with_slash name = false ->
  starts_with_slash (spec_file_stem name ++ "_cleaned.csv") = false.
Proof.
  destruct name as [|c s]; [reflexivity|]. cbn [starts_with_slash spec_file_stem append].
  now rewrite stem_char_slash.
Qed.

(** The three paths of the configured datasets. *)
Example cleaned_paths_of_datasets :
  map (fun np => cleaned_path (fst np)) DATASETS =
    [ "data/cleaned_datasets/benin_malanville_cleaned.csv";
      "data/cleaned_datasets/sierra_leone_bumbuna_cleaned.csv";
      "data/cleaned_datasets/togo_dapaong_qc_cleaned.csv" ].
Proof. reflexivity. Qed.

(** C8: the cleaned file of a dataset name is [os.path.join] of the output
    directory and the name lowercased, with spaces turned into underscores,
    followed by "_cleaned.csv"; for a name that does not start with "/"
    (all the configured ones) that is the directory followed by that file
    name. *)
Theorem cleaned_path_derivation (name : string) :
  cleaned_path name = os_path_join CLEANED_FOLDER (spec_file_stem name ++ "_cleaned.csv") /\
  (starts_with_slash name = false ->
   cleaned_path name = (CLEANED_FOLDER ++ spec_file_stem name ++ "_cleaned.csv")%string).
Proof.
  unfold cleaned_path. rewrite lower_replace_stem. split; [reflexivity|].
  intros H. unfold os_path_join. rewrite (stem_not_absolute name H). reflexivity.
Qed.

(* ------------------------------------------------------------------ *)
(** ** Raw and cleaned tables *)

Section Pipeline.

Variable read_csv : string -> res table.
Variable clean_dataset : table -> string -> res table.

Lemma load_and_clean_spec (ds : list (string * string))
    (cleaned_data uncleaned_data : list (string * table)) (L : list event) :
  exists new,
    fst (load_and_clean read_csv clean_dataset ds cleaned_data uncleaned_data L) = L ++ new /\
    (forall ev, In ev new -> exists m, ev = EvError m) /\
    (forall x, snd (load_and_clean read_csv clean_dataset ds cleaned_data uncleaned_data L) = Ret x ->
       snd x = fold_left (fun acc np => dict_set acc (fst np) (load_table read_csv (snd np)))
                         ds uncleaned_data).
Proof.
  revert cleaned_data uncleaned_data L.
  induction ds as [|[name path] ds IH]; intros c u L; cbn [load_and_clean fold_left fst snd].
  - exists []; split; [cbn; now rewrite app_nil_r|split; [intros ? []|]].
    intros x Hx. cbn in Hx. injection Hx as <-. reflexivity.
  - destruct (load_data_eq read_csv path L) as [n1 [E1 P1]].
    unfold bind, lift. rewrite E1.
    destruct (clean_dataset (load_table read_csv path) (cleaned_path name)) as [cl|e].
    + destruct (IH (dict_set c name cl) (dict_set u name (load_table read_csv path)) (L ++ n1))
        as [n2 [E2 [P2 R2]]].
      exists (n1 ++ n2); split; [rewrite E2, <- app_assoc; reflexivity|split; [|exact R2]].
      intros ev Hin. apply in_app_or in Hin as [Hin|Hin]; auto.
    + exists n1; split; [reflexivity|split; [exact P1|]].
      intros x Hx; discriminate.
Qed.

Lemma load_and_clean_blank (ds : list (string * string))
    (c c' u : list (string * table)) (L : list event) :
  fst (load_and_clean read_csv clean_dataset ds c u L) =
    fst (load_and_clean read_csv (blank_cleaning clean_dataset) ds c' u L) /\
  match snd (load_and_clean read_csv clean_dataset ds c u L),
        snd (load_and_clean read_csv (blank_cleaning clean_dataset) ds c' u L) with
  | Ret x1, Ret x2 => snd x1 = snd x2
  | Raise e1, Raise e2 => e1 = e2
  | _, _ => False
  end.
Proof.
  revert c c' u L.
  induction ds as [|[name path] ds IH]; intros c c' u L; cbn [load_and_clean].
  - cbn. auto.
  - destruct (load_data_eq read_csv path L) as [n1 [E1 _]].
    unfold bind, lift, blank_cleaning. rewrite E1.
    destruct (clean_dataset (load_table read_csv path) (cleaned_path name)) as [cl|e].
    + apply IH.
    + cbn. auto.
Qed.

End Pipeline.

(** C10: every view the dashboard shows (the EDA summaries, the charts and
    outlier detection) is computed from the table [load_data] returned for
    the selected name, or from a column selection of it; and the cleaned
    tables are never used: replacing each of them by the empty table (the
    exceptions of the cleaning kept) leaves the whole run unchanged. *)
Theorem views_use_uncleaned_data (read_csv : string -> res table)
    (clean_dataset : table -> string -> res table)
    (run_op : op -> table -> res unit) (selected_dataset_name : string) :
  (forall o a, In (EvCall o a) (fst (main read_csv clean_dataset run_op selected_dataset_name [])) ->
     a = raw_selected read_csv selected_dataset_name \/
     exists cs, project (raw_selected read_csv selected_dataset_name) cs = Ret a) /\
  main read_csv clean_dataset run_op selected_dataset_name [] =
    main read_csv (blank_cleaning clean_dataset) run_op selected_dataset_name [].
Proof.
  split.
  - intros o a Hin. unfold main, load_and_clean_all_datasets, bind in Hin.
    destruct (load_and_clean_spec read_csv clean_dataset DATASETS [] [] [])
      as [n1 [E1 [P1 R1]]].
    destruct (load_and_clean read_csv clean_dataset DATASETS [] [] []) as [L1 [x|e]] eqn:EL;
      cbn [fst snd] in E1, R1, Hin; subst L1.
    + specialize (R1 x eq_refl).
      unfold emit in Hin.
      destruct (exec_gated run_op (dict_get (snd x) selected_dataset_name empty_table)
                  (dashboard_tabs selected_dataset_name)
                  (([] ++ n1) ++ [EvText ("Solar Farm Data Analysis Dashboard for "
                                           ++ selected_dataset_name)]))
        as [n2 [E2 [C2 _]]].
      rewrite E2 in Hin.
      unfold raw_selected, raw_tables. rewrite <- R1.
      apply in_app_or in Hin as [Hin|Hin].
      * apply in_app_or in Hin as [Hin|[H|[]]]; [|discriminate].
        destruct (P1 _ Hin) as [m Hm]; discriminate.
      * exact (proj1 (C2 o a Hin)).
    + destruct (P1 _ Hin) as [m Hm]; discriminate.
  - unfold main, load_and_clean_all_datasets, bind.
    destruct (load_and_clean_blank read_csv clean_dataset DATASETS [] [] [] []) as [F S].
    destruct (load_and_clean read_csv clean_dataset DATASETS [] [] []) as [L1 [x1|e1]],
             (load_and_clean read_csv (blank_cleaning clean_dataset) DATASETS [] [] [])
               as [L2 [x2|e2]];
      cbn [fst snd] in F, S; try contradiction; subst; [rewrite S|]; reflexivity.
Qed.

(* ------------------------------------------------------------------ *)
(** ** Extraction *)

Section Extraction.

Variable zip_open : string -> res zipfile.
Variable extract_member : string -> string -> res unit.

Lemma extract_members_spec (ms : list string) (path : string) (L : list event) :
  (Forall (fun m => extract_member m path = Ret tt) ms /\
   extract_members extract_member ms path L =
     (L ++ map (fun m => EvExtract m path) ms, Ret tt)) \/
  (exists done m rest e,
     ms = done ++ m :: rest /\
     Forall (fun m => extract_member m path = Ret tt) done /\
     extract_member m path = Raise e /\
     extract_members extract_member ms path L =
       (L ++ map (fun m => EvExtract m path) (done ++ [m]), Raise e)).
Proof.
  revert L; induction ms as [|m ms IH]; intros L; cbn [extract_members].
  - left; split; [constructor|]. cbn. now rewrite app_nil_r.
  - unfold bind, emit, lift.
    destruct (extract_member m path) as [[]|e] eqn:Em.
    + destruct (IH (L ++ [EvExtract m path])) as [[F E]|[d [m' [rest [e [Hms [F [Hm E]]]]]]]].
      * left; split; [constructor; auto|]. rewrite E, <- app_assoc. reflexivity.
      * right. exists (m :: d), m', rest, e. subst ms.
        split; [reflexivity|split; [constructor; auto|split; [exact Hm|]]].
        rewrite E, <- app_assoc. reflexivity.
    + right. exists [], m, ms, e. split; [reflexivity|split; [constructor|split; [exact Em|]]].
      reflexivity.
Qed.

End Extraction.

(** A two-member archive whose second member cannot be written. *)
Example extract_second_member_fails :
  extract_datasets (fun p => Ret (mk_zipfile p ["a.csv"; "b.csv"]))
    (fun m _ => if String.eqb m "b.csv" then Raise "PermissionError" else Ret tt)
    "data.zip" "data" [] =
  ([EvExtract "a.csv" "data"; EvExtract "b.csv" "data"; EvClose "data.zip"],
   Raise "PermissionError").
Proof. reflexivity. Qed.

(** C9: [extract_datasets] opens the archive and extracts every member, in
    order, into the destination, then prints "Extracted <input> to <output>"
    and closes it.  It recovers from nothing: if opening fails, or the
    extraction of a member fails, it raises that same exception (after
    closing the archive, which prints nothing), with no completion message. *)
Theorem extract_datasets_spec (zip_open : string -> res zipfile)
    (extract_member : string -> string -> res unit)
    (input_data_path output_data_path : string) (L : list event) :
  match zip_open input_data_path with
  | Raise e =>
      extract_datasets zip_open extract_member input_data_path output_data_path L = (L, Raise e)
  | Ret z =>
      (Forall (fun m => extract_member m output_data_path = Ret tt) (namelist z) /\
       extract_datasets zip_open extract_member input_data_path output_data_path L =
         (L ++ map (fun m => EvExtract m output_data_path) (namelist z) ++
            [EvPrint ("Extracted " ++ input_data_path ++ " to " ++ output_data_path)%string;
             EvClose (zpath z)], Ret tt)) \/
      (exists done m rest e,
         namelist z = done ++ m :: rest /\
         Forall (fun m => extract_member m output_data_path = Ret tt) done /\
         extract_member m output_data_path = Raise e /\
         extract_datasets zip_open extract_member input_data_path output_data_path L =
           (L ++ map (fun m => EvExtract m output_data_path) (done ++ [m]) ++
              [EvClose (zpath z)], Raise e))
  end.
Proof.
  unfold extract_datasets, extractall, zclose, try_except, bind, lift, emit.
  destruct (zip_open input_data_path) as [z|e]; [|reflexivity].
  destruct (extract_members_spec extract_member (namelist z) output_data_path L)
    as [[F E]|[d [m [rest [e [Hms [F [Hm E]]]]]]]]; rewrite E.
  - left; split; [exact F|]. rewrite <- !app_assoc. reflexivity.
  - right. exists d, m, rest, e. split; [exact Hms|split; [exact F|split; [exact Hm|]]].
    rewrite <- app_assoc. reflexivity.
Qed.

(* ------------------------------------------------------------------ *)
(** ** Outlier detection on a constant column *)

(** Five rows; the fifth GHI reading stands far from the others. *)
Example detect_outliers_one_row :
  detect_outliers AnyColumn 1
    [("GHI", [1; 1; 1; 1; 100]); ("DNI", [5; 5; 5; 5; 5])]%Q ["GHI"; "DNI"] = Some [4].
Proof. vm_compute. reflexivity. Qed.

Lemma Qsum_const (xs : list Q) (k : Q) :
  Forall (fun x => x == k) xs ->
  Qsum xs == inject_Z (Z.of_nat (List.length xs)) * k.
Proof.
  induction 1 as [|x xs Hx _ IH]; cbn [Qsum fold_right List.length].
  - unfold inject_Z; cbn. ring.
  - fold (Qsum xs). rewrite Nat2Z.inj_succ, <- Z.add_1_r, inject_Z_plus.
    rewrite Hx, IH. ring.
Qed.

Lemma mean_const (xs : list Q) (k : Q) :
  Forall (fun x => x == k) xs -> xs <> [] -> mean xs == k.
Proof.
  intros H Hne. unfold mean. rewrite (Qsum_const xs k H).
  assert (Hn : ~ inject_Z (Z.of_nat (List.length xs)) == 0).
  { intros E. pose proof (proj1 (inject_Z_injective (Z.of_nat (List.length xs)) 0) E) as E'.
    destruct xs; [contradiction|]. cbn in E'. lia. }
  field. exact Hn.
Qed.

Lemma Qsum_map_zero (f : Q -> Q) (xs : list Q) :
  Forall (fun x => f x == 0) xs -> Qsum (map f xs) == 0.
Proof.
  induction 1 as [|x xs Hx _ IH]; cbn [map Qsum fold_right]; [reflexivity|].
  fold (Qsum (map f xs)). rewrite Hx, IH. reflexivity.
Qed.

Lemma variance_const (xs : list Q) (k : Q) :
  Forall (fun x => x == k) xs -> variance xs == 0.
Proof.
  intros H. destruct xs as [|x0 xs0] eqn:Exs; [reflexivity|].
  rewrite <- Exs in *.
  assert (Hm : mean xs == k) by (apply mean_const; [exact H|subst; discriminate]).
  unfold variance.
  rewrite (Qsum_map_zero (fun x => (x - mean xs) * (x - mean xs))%Q).
  - unfold Qdiv. ring.
  - eapply Forall_impl; [|exact H]. intros x Hx. cbn beta. rewrite Hx, Hm. ring.
Qed.

Lemma flags_col_const (threshold : Q) (xs : list Q) (k : Q) (i : nat) :
  Forall (fun x => x == k) xs -> flags_col threshold xs i = false.
Proof.
  intros H. unfold flags_col.
  assert (Hv : Qeq_bool (variance xs) 0 = true)
    by (apply Qeq_bool_iff; exact (variance_const xs k H)).
  rewrite Hv. reflexivity.
Qed.

Lemma lookup_cols_some (tbl : numtable) (cols : list string) :
  (forall c, In c cols -> lookup_col tbl c <> None) ->
  exists xss, lookup_cols tbl cols = Some xss.
Proof.
  induction cols as [|c cols IH]; intros H; cbn; [eauto|].
  destruct (lookup_col tbl c) as [xs|] eqn:Ec;
    [|exfalso; apply (H c); [left; reflexivity|exact Ec]].
  assert (H' : forall c', In c' cols -> lookup_col tbl c' <> None)
    by (intros c' Hc'; apply H; right; exact Hc').
  destruct (IH H') as [xss Exss].
  rewrite Exss. eauto.
Qed.

Lemma lookup_cols_in (tbl : numtable) (cols : list string) (xss : list (list Q)) :
  lookup_cols tbl cols = Some xss ->
  (forall ys, In ys xss -> exists c, In c cols /\ lookup_col tbl c = Some ys) /\
  (forall c xs, In c cols -> lookup_col tbl c = Some xs -> In xs xss).
Proof.
  revert xss; induction cols as [|c cols IH]; intros xss H; cbn in H.
  - injection H as <-. split; intros; contradiction.
  - destruct (lookup_col tbl c) as [xs|] eqn:Ec; [|discriminate].
    destruct (lookup_cols tbl cols) as [xss'|]; [|discriminate].
    injection H as <-. destruct (IH xss' eq_refl) as [A B]. split.
    + intros ys [<-|Hin]; [exists c; split; [left|]; auto|].
      destruct (A ys Hin) as [c' [Hc' Hl]]. exists c'; split; [right|]; auto.
    + intros c' xs' [<-|Hin] Hl; [left; congruence|right; eauto].
Qed.

Lemma combine_flags_true (mode : flag_mode) (f : list Q -> bool) (xss : list (list Q)) :
  xss <> [] -> combine_flags mode (map f xss) = true ->
  exists ys, In ys xss /\ f ys = true.
Proof.
  intros Hne H. destruct mode; cbn in H.
  - apply existsb_exists in H as [b [Hb Hbt]]. apply in_map_iff in Hb as [ys [<- Hys]].
    eauto.
  - destruct xss as [|ys xss]; [contradiction|]. cbn in H.
    apply andb_prop in H as [H _]. exists ys; split; [left|]; auto.
Qed.

(** C2 (modelled from the spec): [detect_outliers] returns a row set (no
    KeyError, no division by zero) whenever the selected columns exist, and a
    column whose values are all equal flags no row: each flagged row is
    flagged through another selected column. *)
Theorem constant_column_flags_nothing (mode : flag_mode) (threshold : Q)
    (tbl : numtable) (cols : list string) (c : string) (k : Q) (xs : list Q) :
  In c cols ->
  lookup_col tbl c = Some xs ->
  Forall (fun x => x == k) xs ->
  (forall c', In c' cols -> lookup_col tbl c' <> None) ->
  exists rows, detect_outliers mode threshold tbl cols = Some rows /\
    forall i, In i rows ->
      flags_col threshold xs i = false /\
      exists c' ys, In c' cols /\ c' <> c /\ lookup_col tbl c' = Some ys /\
        flags_col threshold ys i = true.
Proof.
  intros Hc Hxs Hk Hall.
  destruct (lookup_cols_some tbl cols Hall) as [xss Exss].
  destruct (lookup_cols_in tbl cols xss Exss) as [A B].
  unfold detect_outliers. rewrite Exss. eexists; split; [reflexivity|].
  intros i Hi. apply filter_In in Hi as [_ Hi].
  pose proof (flags_col_const threshold xs k i Hk) as Hf.
  split; [exact Hf|].
  assert (Hne : xss <> []) by (intros ->; exact (B c xs Hc Hxs)).
  destruct (combine_flags_true mode (fun ys => flags_col threshold ys i) xss Hne Hi)
    as [ys [Hys Hfy]].
  destruct (A ys Hys) as [c' [Hc' Hl]].
  exists c', ys. split; [exact Hc'|split; [|split; assumption]].
  intros ->. rewrite Hxs in Hl. injection Hl as <-. congruence.
Qed.

(** An instance: the DNI column is constant, only the GHI column flags. *)
Lemma constant_column_flags_nothing_witness :
  exists rows,
    detect_outliers AnyColumn 1 [("GHI", [1; 1; 1; 1; 100]); ("DNI", [5; 5; 5; 5; 5])]%Q
      ["GHI"; "DNI"] = Some rows /\
    forall i, In i rows ->
      flags_col 1 [5; 5; 5; 5; 5]%Q i = false /\
      exists c' ys, In c' ["GHI"; "DNI"] /\ c' <> "DNI" /\
        lookup_col [("GHI", [1; 1; 1; 1; 100]); ("DNI", [5; 5; 5; 5; 5])]%Q c' = Some ys /\
        flags_col 1 ys i = true.
Proof.
  apply (constant_column_flags_nothing AnyColumn 1
           [("GHI", [1; 1; 1; 1; 100]); ("DNI", [5; 5; 5; 5; 5])]%Q ["GHI"; "DNI"] "DNI" 5
           [5; 5; 5; 5; 5]%Q).
  - right; left; reflexivity.
  - reflexivity.
  - repeat constructor.
  - intros c' [<-|[<-|[]]]; discriminate.
Defined.

(* ================================================================== *)
(** * Further properties of the script *)

Lemma exec_ext (r1 r2 : op -> table -> res unit) (t : table) (s : stmt) (L : list event) :
  (forall o a, r1 o a = r2 o a) -> exec r1 t s L = exec r2 t s L.
Proof.
  intros H. revert L; induction s; intros L; cbn [exec]; try reflexivity.
  - unfold bind, lift, emit. destruct (eval_texpr t e); [now rewrite H|reflexivity].
  - unfold bind. rewrite IHs1. destruct (exec r2 t s1 L) as [L1 [u|x]]; auto.
  - destruct (eval_guard (tcols t) g); auto.
  - unfold try_except. now rewrite IHs.
Qed.

(** When the EDA summaries and outlier detection succeed, the charts drawn
    are exactly those whose column test holds, in the order of the script;
    chart failures do not change the list. *)
Theorem charts_drawn_exactly (selected_dataset_name : string)
    (run_op : op -> table -> res unit) (t : table) :
  (forall o a, is_chart o = false -> run_op o a = Ret tt) ->
  charts_attempted (fst (exec run_op t (dashboard_tabs selected_dataset_name) [])) =
    filter (fun o => eval_guard (tcols t) (gate o))
      [Heatmap; TimeSeries; WindRose; WindDirection; Boxplot; TempHumidity; TempTrends; PairPlot].
Proof.
  intros Hok.
  assert (Hi : isolated (dashboard_tabs selected_dataset_name) = true) by reflexivity.
  destruct (proj1 (exec_isolated run_op t _) Hi [] [] eq_refl) as [C _].
  rewrite C.
  rewrite (exec_ext (erase_charts run_op) (fun _ _ => Ret tt)).
  2:{ intros o a. unfold erase_charts. destruct (is_chart o) eqn:E; auto. }
  cbn -[has_col]; unfold project; cbn -[has_col].
  repeat (match goal with |- context [has_col ?c (tcols t)] => destruct (has_col c (tcols t)) end;
          cbn -[has_col]);
  reflexivity.
Qed.

Lemma charts_drawn_exactly_witness :
  charts_attempted
    (fst (exec (fun o _ => if op_eqb o PairPlot then Raise "boom" else Ret tt)
               (mk_table ["WD"; "GHI"; "DNI"; "DHI"] []) (dashboard_tabs "Benin Malanville") [])) =
  filter (fun o => eval_guard (tcols (mk_table ["WD"; "GHI"; "DNI"; "DHI"] [])) (gate o))
    [Heatmap; TimeSeries; WindRose; WindDirection; Boxplot; TempHumidity; TempTrends; PairPlot].
Proof.
  apply (charts_drawn_exactly "Benin Malanville"
           (fun o _ => if op_eqb o PairPlot then Raise "boom" else Ret tt)
           (mk_table ["WD"; "GHI"; "DNI"; "DHI"] [])).
  intros o a Ho. destruct o; cbn in Ho |- *; try discriminate; reflexivity.
Defined.

(** An exception of the EDA summary ([describe()]) is not caught: the run
    stops with it, before any chart and without any error box. *)
Theorem eda_failure_stops_dashboard (selected_dataset_name : string)
    (run_op : op -> table -> res unit) (t : table) (e : string) :
  run_op Describe t = Raise e ->
  snd (exec run_op t (dashboard_tabs selected_dataset_name) []) = Raise e /\
  charts_attempted (fst (exec run_op t (dashboard_tabs selected_dataset_name) [])) = [] /\
  (forall m, ~ In (EvError m) (fst (exec run_op t (dashboard_tabs selected_dataset_name) []))).
Proof.
  intros H. cbn -[has_col].
  unfold bind, emit, lift, ret, try_except. cbn -[has_col].
  rewrite H. cbn -[has_col].
  split; [reflexivity|split; [reflexivity|]].
  intros m Hm. repeat destruct Hm as [Hm|Hm]; try discriminate; contradiction.
Qed.

Lemma eda_failure_stops_dashboard_witness :
  snd (exec (fun o _ => if op_eqb o Describe then Raise "ValueError" else Ret tt)
            empty_table (dashboard_tabs "Togo Dapaong QC") []) = Raise "ValueError" /\
  charts_attempted (fst (exec (fun o _ => if op_eqb o Describe then Raise "ValueError" else Ret tt)
            empty_table (dashboard_tabs "Togo Dapaong QC") [])) = [] /\
  (forall m, ~ In (EvError m)
     (fst (exec (fun o _ => if op_eqb o Describe then Raise "ValueError" else Ret tt)
            empty_table (dashboard_tabs "Togo Dapaong QC") []))).
Proof.
  apply (eda_failure_stops_dashboard "Togo Dapaong QC"
           (fun o _ => if op_eqb o Describe then Raise "ValueError" else Ret tt)
           empty_table "ValueError").
  reflexivity.
Defined.

Lemma never_raises_exec (run_op : op -> table -> res unit) (t : table) (s : stmt)
    (L : list event) :
  never_raises s = true -> snd (exec run_op t s L) = Ret tt.
Proof.
  revert L; induction s; intros L Hs; cbn [never_raises exec] in Hs |- *; try discriminate.
  - reflexivity.
  - reflexivity.
  - apply andb_prop in Hs as [Ha Hb]. unfold bind.
    specialize (IHs1 L Ha). destruct (exec run_op t s1 L) as [L1 [[]|x]]; cbn in IHs1.
    + apply IHs2; exact Hb.
    + discriminate.
  - destruct (eval_guard (tcols t) g); [apply IHs; exact Hs|reflexivity].
  - unfold try_except. destruct (exec run_op t s L) as [L1 [[]|x]]; reflexivity.
Qed.

Lemma exec_seq_ret (run_op : op -> table -> res unit) (t : table) (a b : stmt)
    (L L1 : list event) (u : unit) :
  exec run_op t a L = (L1, Ret u) -> exec run_op t (SSeq a b) L = exec run_op t b L1.
Proof. intros H. cbn [exec]. unfold bind. now rewrite H. Qed.

Lemma exec_seq_safe (run_op : op -> table -> res unit) (t : table) (a b : stmt)
    (L : list event) :
  never_raises a = true ->
  exec run_op t (SSeq a b) L = exec run_op t b (fst (exec run_op t a L)).
Proof.
  intros H. apply (never_raises_exec run_op t a L) in H.
  destruct (exec run_op t a L) as [L1 r] eqn:E; cbn in H; subst r.
  apply (exec_seq_ret _ _ _ _ _ _ _ E).
Qed.

(** Every call of the Visualizations and Advanced Analysis tabs sits inside
    a [try], so the dashboard run raises exactly when one of the three EDA
    calls ([describe()], [isnull().sum()], [duplicated().sum()]) raises, and
    then with the first such exception. *)
Theorem dashboard_raises_only_from_eda (selected_dataset_name : string)
    (run_op : op -> table -> res unit) (t : table) (L : list event) :
  snd (exec run_op t (dashboard_tabs selected_dataset_name) L) =
    match run_op Describe t, run_op IsNullSum t, run_op DuplicatedSum t with
    | Raise e, _, _ => Raise e
    | Ret _, Raise e, _ => Raise e
    | Ret _, Ret _, Raise e => Raise e
    | Ret _, Ret _, Ret _ => Ret tt
    end.
Proof.
  unfold dashboard_tabs, seqs; cbn [fold_right].
  rewrite exec_seq_safe by reflexivity.
  cbn [exec]. unfold bind at 1.
  cbn [tab_eda seqs fold_right exec eval_texpr].
  unfold bind, emit, lift, ret.
  destruct (run_op Describe t) as [[]|e]; [|reflexivity].
  destruct (run_op IsNullSum t) as [[]|e]; [|reflexivity].
  destruct (run_op DuplicatedSum t) as [[]|e]; [|reflexivity].
  match goal with |- context [exec run_op t tab_visuals ?L2] =>
    pose proof (never_raises_exec run_op t tab_visuals L2 eq_refl) as H1;
    destruct (exec run_op t tab_visuals L2) as [L3 r]; cbn [snd] in H1; subst r end.
  match goal with |- context [exec run_op t tab_advanced ?L2] =>
    pose proof (never_raises_exec run_op t tab_advanced L2 eq_refl) as H2;
    destruct (exec run_op t tab_advanced L2) as [L4 r]; cbn [snd] in H2; subst r end.
  reflexivity.
Qed.

(** In the Advanced Analysis tab, when [detect_outliers] raises on the three
    irradiance columns, the box plot is not drawn, the error box
    "Error detecting outliers: <e>" is shown, and the tab goes on with its
    later sections, which only call the temperature and pair plots. *)
Theorem outlier_failure_skips_boxplot (run_op : op -> table -> res unit) (t : table)
    (e : string) (L : list event) :
  eval_guard (tcols t) (GAll outlier_columns) = true ->
  (forall a, project t outlier_columns = Ret a -> run_op DetectOutliers a = Raise e) ->
  exists a new,
    project t outlier_columns = Ret a /\
    fst (exec run_op t tab_advanced L) =
      L ++ [EvText "Advanced Analysis"; EvText "Outlier Detection"; EvCall DetectOutliers a;
            EvError ("Error detecting outliers: " ++ e)%string] ++ new /\
    (forall o a', In (EvCall o a') new -> In o [TempHumidity; TempTrends; PairPlot]).
Proof.
  intros Hg Hd.
  destruct (project t outlier_columns) as [a|x] eqn:Ep.
  2:{ unfold project in Ep. cbn [eval_guard] in Hg. rewrite Hg in Ep. discriminate. }
  specialize (Hd a eq_refl).
  unfold tab_advanced, seqs; cbn [fold_right].
  erewrite exec_seq_ret by reflexivity.
  erewrite exec_seq_ret by reflexivity.
  erewrite exec_seq_ret.
  2:{ cbn [exec]. rewrite Hg. cbn [exec eval_texpr]. unfold try_except, bind, lift, emit.
      rewrite Ep, Hd. reflexivity. }
  match goal with |- context [exec run_op t ?s ?L2] =>
    destruct (exec_gated run_op t s L2) as [new [E [C _]]] end.
  exists a, new. split; [reflexivity|split].
  - rewrite E. now rewrite <- !app_assoc.
  - intros o a' Hin. destruct (C o a' Hin) as [_ [gs [Hgs _]]].
    cbn in Hgs. destruct Hgs as [H|[H|[H|[]]]]; injection H as <- _; cbn; tauto.
Qed.

Lemma outlier_failure_skips_boxplot_witness :
  exists a new,
    project (mk_table ["GHI"; "DNI"; "DHI"; "Tamb"] [[CNum 1; CNum 2; CNum 3; CNum 4]])
      outlier_columns = Ret a /\
    fst (exec (fun o _ => if op_eqb o DetectOutliers then Raise "ValueError" else Ret tt)
           (mk_table ["GHI"; "DNI"; "DHI"; "Tamb"] [[CNum 1; CNum 2; CNum 3; CNum 4]])
           tab_advanced []) =
      [] ++ [EvText "Advanced Analysis"; EvText "Outlier Detection"; EvCall DetectOutliers a;
             EvError ("Error detecting outliers: " ++ "ValueError")%string] ++ new /\
    (forall o a', In (EvCall o a') new -> In o [TempHumidity; TempTrends; PairPlot]).
Proof.
  apply (outlier_failure_skips_boxplot
           (fun o _ => if op_eqb o DetectOutliers then Raise "ValueError" else Ret tt)
           (mk_table ["GHI"; "DNI"; "DHI"; "Tamb"] [[CNum 1; CNum 2; CNum 3; CNum 4]])
           "ValueError" []).
  - reflexivity.
  - intros a _. reflexivity.
Defined.

Lemma load_data_log (read_csv : string -> res table) (path : string) (L : list event) :
  load_data read_csv path L = (L ++ load_error read_csv path, Ret (load_table read_csv path)).
Proof.
  unfold load_data, load_error, load_table, try_except, lift, bind, emit, ret.
  destruct (read_csv path); [now rewrite app_nil_r|reflexivity].
Qed.

Section Outcome.

Variable read_csv : string -> res table.
Variable clean_dataset : table -> string -> res table.

Lemma load_and_clean_outcome (ds : list (string * string)) (c u : list (string * table))
    (L : list event) :
  (forallb (cleans read_csv clean_dataset) ds = true /\
   load_and_clean read_csv clean_dataset ds c u L =
     (L ++ load_errors read_csv ds,
      Ret (fold_left (fun acc np => dict_set acc (fst np) (cleaned_table read_csv clean_dataset np))
             ds c,
           fold_left (fun acc np => dict_set acc (fst np) (load_table read_csv (snd np))) ds u))) \/
  (exists pre np post e,
     ds = pre ++ np :: post /\
     forallb (cleans read_csv clean_dataset) pre = true /\
     clean_dataset (load_table read_csv (snd np)) (cleaned_path (fst np)) = Raise e /\
     load_and_clean read_csv clean_dataset ds c u L =
       (L ++ load_errors read_csv (pre ++ [np]), Raise e)).
Proof.
  revert c u L; induction ds as [|[name path] ds IH]; intros c u L.
  - left. split; [reflexivity|]. cbn. now rewrite app_nil_r.
  - assert (Hstep : load_and_clean read_csv clean_dataset ((name, path) :: ds) c u L =
              match clean_dataset (load_table read_csv path) (cleaned_path name) with
              | Ret cl => load_and_clean read_csv clean_dataset ds (dict_set c name cl)
                            (dict_set u name (load_table read_csv path))
                            (L ++ load_error read_csv path)
              | Raise e => (L ++ load_error read_csv path, Raise e)
              end).
    { cbn [load_and_clean]. unfold bind at 1. rewrite load_data_log. unfold bind, lift.
      destruct (clean_dataset (load_table read_csv path) (cleaned_path name)); reflexivity. }
    assert (Hc : forall cl, clean_dataset (load_table read_csv path) (cleaned_path name) = Ret cl ->
              cleans read_csv clean_dataset (name, path) = true /\
              cleaned_table read_csv clean_dataset (name, path) = cl).
    { intros cl E. unfold cleans, cleaned_table. cbn [fst snd]. now rewrite E. }
    destruct (clean_dataset (load_table read_csv path) (cleaned_path name)) as [cl|e] eqn:Ec.
    + destruct (Hc cl eq_refl) as [Hc1 Hc2].
      destruct (IH (dict_set c name cl) (dict_set u name (load_table read_csv path))
                  (L ++ load_error read_csv path))
        as [[F E]|[pre [np [post [e [Hds [F [He E]]]]]]]].
      * left. split.
        -- cbn [forallb]. now rewrite Hc1, F.
        -- rewrite Hstep, E. cbn [fold_left]. rewrite Hc2, <- app_assoc. reflexivity.
      * right. exists ((name, path) :: pre), np, post, e.
        split; [now rewrite Hds|split; [|split; [exact He|]]].
        -- cbn [forallb]. now rewrite Hc1, F.
        -- rewrite Hstep, E, <- app_assoc. reflexivity.
    + right. exists [], (name, path), ds, e.
      split; [reflexivity|split; [reflexivity|split; [exact Ec|]]].
      rewrite Hstep. cbn. now rewrite app_nil_r.
Qed.

End Outcome.

(** [load_and_clean_all_datasets] reads and cleans the three datasets in
    order.  When every cleaning returns, both dicts have exactly the three
    names as keys, in order; [uncleaned_data[name]] is the table [load_data]
    returned for the name's path and [cleaned_data[name]] the table
    [clean_dataset] returned for it; the only boxes shown are the load
    failures, in order.  Otherwise the exception of the first cleaning that
    raises escapes, after the load failures of the datasets up to that one. *)
Theorem load_and_clean_all_outcome (read_csv : string -> res table)
    (clean_dataset : table -> string -> res table) :
  match load_and_clean_all_datasets read_csv clean_dataset [] with
  | (log, Ret (cleaned_data, uncleaned_data)) =>
      log = load_errors read_csv DATASETS /\
      map fst cleaned_data = map fst DATASETS /\
      map fst uncleaned_data = map fst DATASETS /\
      Forall (fun np =>
                clean_dataset (load_table read_csv (snd np)) (cleaned_path (fst np)) =
                  Ret (dict_get cleaned_data (fst np) empty_table) /\
                dict_get uncleaned_data (fst np) empty_table = load_table read_csv (snd np))
        DATASETS
  | (log, Raise e) =>
      exists pre np post,
        DATASETS = pre ++ np :: post /\
        Forall (fun np => exists c,
                  clean_dataset (load_table read_csv (snd np)) (cleaned_path (fst np)) = Ret c) pre /\
        clean_dataset (load_table read_csv (snd np)) (cleaned_path (fst np)) = Raise e /\
        log = load_errors read_csv (pre ++ [np])
  end.
Proof.
  unfold load_and_clean_all_datasets.
  destruct (load_and_clean_outcome read_csv clean_dataset DATASETS [] [] [])
    as [[F E]|[pre [np [post [e [Hds [F [He E]]]]]]]]; rewrite E.
  - rewrite forallb_forall in F.
    assert (G : forall np, In np DATASETS ->
              clean_dataset (load_table read_csv (snd np)) (cleaned_path (fst np)) =
                Ret (cleaned_table read_csv clean_dataset np)).
    { intros np Hn. specialize (F np Hn). unfold cleans, cleaned_table in *.
      destruct (clean_dataset (load_table read_csv (snd np)) (cleaned_path (fst np)));
        [reflexivity|discriminate]. }
    split; [reflexivity|split; [reflexivity|split; [reflexivity|]]].
    apply Forall_forall. intros np Hn. rewrite (G np Hn).
    unfold DATASETS in Hn. destruct Hn as [<-|[<-|[<-|[]]]]; split; reflexivity.
  - exists pre, np, post. split; [exact Hds|split; [|split; [exact He|reflexivity]]].
    apply Forall_forall. intros x Hx. rewrite forallb_forall in F. specialize (F x Hx).
    unfold cleans in F. destruct (clean_dataset (load_table read_csv (snd x)) (cleaned_path (fst x)));
      [eauto|discriminate].
Qed.




(** When every cleaning returns, the title "Solar Farm Data Analysis
    Dashboard for <name>" is shown right after the load failures, whatever
    they were. *)
Theorem main_title_after_load_errors (read_csv : string -> res table)
    (clean_dataset : table -> string -> res table) (run_op : op -> table -> res unit)
    (selected_dataset_name : string) :
  (forall np, In np DATASETS -> exists c,
     clean_dataset (load_table read_csv (snd np)) (cleaned_path (fst np)) = Ret c) ->
  exists rest,
    fst (main read_csv clean_dataset run_op selected_dataset_name []) =
      load_errors read_csv DATASETS ++
      EvText ("Solar Farm Data Analysis Dashboard for " ++ selected_dataset_name) :: rest.
Proof.
  intros Hc. unfold main, load_and_clean_all_datasets, bind.
  destruct (load_and_clean_outcome read_csv clean_dataset DATASETS [] [] [])
    as [[_ E]|[pre [np [post [e [Hds [_ [He _]]]]]]]].
  - rewrite E. unfold emit. cbv beta iota.
    match goal with |- context [exec run_op ?t ?s ?L] =>
      destruct (exec_extends run_op t s L) as [new En] end.
    rewrite En. exists new. now rewrite <- !app_assoc.
  - destruct (Hc np) as [c Ec]; [rewrite Hds; apply in_or_app; right; left; reflexivity|].
    rewrite Ec in He. discriminate.
Qed.

Lemma main_title_after_load_errors_witness :
  exists rest,
    fst (main (fun p => if String.eqb p "data/original_datasets/benin-malanville.csv"
                        then Raise "FileNotFoundError" else Ret empty_table)
              (fun t _ => Ret t) (fun _ _ => Ret tt) "Togo Dapaong QC" []) =
      load_errors (fun p => if String.eqb p "data/original_datasets/benin-malanville.csv"
                            then Raise "FileNotFoundError" else Ret empty_table) DATASETS ++
      EvText ("Solar Farm Data Analysis Dashboard for " ++ "Togo Dapaong QC") :: rest.
Proof.
  apply (main_title_after_load_errors
           (fun p => if String.eqb p "data/original_datasets/benin-malanville.csv"
                     then Raise "FileNotFoundError" else Ret empty_table)
           (fun t _ => Ret t) (fun _ _ => Ret tt) "Togo Dapaong QC").
  intros np _. eauto.
Defined.



Lemma ascii_lower_idem (c : ascii) : ascii_lower (ascii_lower c) = ascii_lower c.
Proof. destruct c as [[] [] [] [] [] [] [] []]; reflexivity. Qed.

Lemma stem_char_underscore (c : ascii) :
  (if Ascii.eqb (ascii_lower (if Ascii.eqb c " "%char then "_"%char else c)) " "%char
   then "_"%char else ascii_lower (if Ascii.eqb c " "%char then "_"%char else c)) =
  (if Ascii.eqb (ascii_lower c) " "%char then "_"%char else ascii_lower c).
Proof. destruct c as [[] [] [] [] [] [] [] []]; reflexivity. Qed.



(** Line 39 ignores case and treats a space like an underscore: names that
    differ only in these ways share one cleaned file, so the later one's
    [clean_dataset] writes over the earlier one's output. *)
Theorem cleaned_path_ignores_case_and_spaces (name : string) :
  cleaned_path (py_lower name) = cleaned_path name /\
  cleaned_path (py_replace_char " "%char "_"%char name) = cleaned_path name.
Proof.
  unfold cleaned_path. split; do 2 f_equal.
  - induction name as [|c s IH]; cbn [py_lower py_replace_char]; [reflexivity|].
    now rewrite ascii_lower_idem, IH.
  - induction name as [|c s IH]; cbn [py_lower py_replace_char]; [reflexivity|].
    now rewrite stem_char_underscore, IH.
Qed.
